(** * gpodder.api: the public developer API of gPodder

    A shallow embedding of [src/gpodder/api.py].  The module is a facade:
    every function forwards to objects of other gPodder modules
    ([PodcastChannel], [db], [gl.config], [util], [opml], [download],
    [console]).  Those collaborators are not part of the facade, so they are
    taken as an interface ([Collaborators]); the facade is written once over
    that interface, as a program in a small state-and-exception monad that
    also records every collaborator call it makes, in order. *)

From Stdlib Require Import String List ZArith Bool Lia.
Import ListNotations.
Local Open Scope string_scope.
Local Open Scope Z_scope.

(** ** Python values the facade handles *)

(** Entities of the application are mutable Python objects that the facade
    only holds by reference; a reference is a handle into the collaborators'
    world. *)
Definition ChannelRef := nat.
Definition EpisodeRef := nat.
Definition TaskRef := nat.
Definition ExporterRef := nat.

(** [AttributeError attr] is what Python raises for [None.attr]; any other
    exception comes out of a collaborator and is passed through. *)
Inductive exn : Type :=
| AttributeError (attr : string)
| CollaboratorError (msg : string).

Inductive result (A : Type) : Type :=
| Ok (a : A)
| Raise (e : exn).
Arguments Ok {A} a.
Arguments Raise {A} e.

(** One constructor per collaborator call (or attribute read) that occurs
    in api.py, with the arguments the facade passes. *)
Inductive Event : Type :=
| ENormalizeFeedUrl (url : string)
| ELoadFromDb (dir : string)
| ELoad (url : string) (create : bool) (max_episodes : option Z) (dir : string)
| EChannelTitle (c : ChannelRef)
| EChannelUrl (c : ChannelRef)
| EGetAllEpisodes (c : ChannelRef)
| ESetCustomTitle (c : ChannelRef) (title : string)
| ESave (c : ChannelRef)
| ERemoveDownloaded (c : ChannelRef)
| EDelete (c : ChannelRef)
| EUpdate (c : ChannelRef) (max_episodes : Z)
| EEpisodeTitle (e : EpisodeRef)
| EEpisodeUrl (e : EpisodeRef)
| EEpisodeState (e : EpisodeRef)
| EEpisodeIsPlayed (e : EpisodeRef)
| ENewDownloadTask (e : EpisodeRef)
| ETaskSetStatus (t : TaskRef) (status : Z)
| ETaskRun (t : TaskRef)
| ENewExporter (filename : string)
| EExporterWrite (x : ExporterRef) (podcasts : list ChannelRef)
| EDbCommit
| ESynchronizeDevice.

(** ** The collaborators

    Everything api.py imports.  A call that can change the application's
    state or raise maps a world to an outcome and a new world; an attribute
    read is a function of the world.  [load]'s [max_episodes] is optional:
    [get_podcast] does not pass it. *)
Class Collaborators : Type := {
  World : Type;
  (* gpodder *)
  STATE_NORMAL : Z;
  STATE_DOWNLOADED : Z;
  STATE_DELETED : Z;
  subscription_file : string;
  (* gl.config *)
  max_episodes_per_feed : Z;
  download_dir : string;
  (* util *)
  normalize_feed_url : string -> string;
  (* libpodcasts.PodcastChannel *)
  load_from_db : string -> World -> result (list ChannelRef) * World;
  load : string -> bool -> option Z -> string ->
         World -> result (option ChannelRef) * World;
  channel_title : ChannelRef -> World -> string;
  channel_url : ChannelRef -> World -> string;
  get_all_episodes : ChannelRef -> World -> result (list EpisodeRef) * World;
  set_custom_title : ChannelRef -> string -> World -> result unit * World;
  channel_save : ChannelRef -> World -> result unit * World;
  remove_downloaded : ChannelRef -> World -> result unit * World;
  channel_delete : ChannelRef -> World -> result unit * World;
  channel_update : ChannelRef -> Z -> World -> result unit * World;
  (* episode entities *)
  episode_title : EpisodeRef -> World -> string;
  episode_url : EpisodeRef -> World -> string;
  episode_state : EpisodeRef -> World -> Z;
  episode_is_played : EpisodeRef -> World -> bool;
  (* download.DownloadTask *)
  QUEUED : Z;
  DownloadTask : EpisodeRef -> World -> result TaskRef * World;
  task_set_status : TaskRef -> Z -> World -> result unit * World;
  task_run : TaskRef -> World -> result unit * World;
  (* opml.Exporter *)
  Exporter : string -> World -> result ExporterRef * World;
  exporter_write : ExporterRef -> list ChannelRef ->
                   World -> result unit * World;
  (* libgpodder.db, console *)
  db_commit : World -> result unit * World;
  console_synchronize_device : World -> result unit * World
}.

(** ** The monad of facade code

    A computation runs in an environment made of the receiver object
    ([self], [tt] for a module-level function), the collaborators' world and
    the log of collaborator calls made so far.  An exception keeps the
    environment: what was mutated before the raise stays mutated. *)
Record Env `{K : Collaborators} (Self : Type) : Type := mkEnv {
  self : Self;
  world : World;
  log : list Event
}.
Arguments mkEnv {_ Self} _ _ _.
Arguments self {_ Self} _.
Arguments world {_ Self} _.
Arguments log {_ Self} _.

Definition M `{K : Collaborators} (Self A : Type) : Type :=
  Env Self -> result A * Env Self.

Section MonadOps.
Context `{K : Collaborators} {Self : Type}.

Definition ret {A} (a : A) : M Self A := fun s => (Ok a, s).

Definition bind {A B} (m : M Self A) (k : A -> M Self B) : M Self B :=
  fun s => match m s with
           | (Ok a, s') => k a s'
           | (Raise e, s') => (Raise e, s')
           end.

Definition raise {A} (e : exn) : M Self A := fun s => (Raise e, s).

Definition get_self : M Self Self := fun s => (Ok (self s), s).

Definition put_self (x : Self) : M Self unit :=
  fun s => (Ok tt, mkEnv x (world s) (log s)).

(** A collaborator call: logged, then run on the world. *)
Definition call {A} (ev : Event) (h : World -> result A * World) : M Self A :=
  fun s => let (r, w') := h (world s) in
           (r, mkEnv (self s) w' (log s ++ [ev])).

(** An attribute read on an entity: logged, the world is left alone. *)
Definition read {A} (ev : Event) (f : World -> A) : M Self A :=
  fun s => (Ok (f (world s)), mkEnv (self s) (world s) (log s ++ [ev])).
End MonadOps.

Declare Scope api_scope.
Delimit Scope api_scope with api.
Notation "x <- m ;; k" := (bind m (fun x => k))
  (at level 61, m at next level, right associativity) : api_scope.
Notation "m ;;; k" := (bind m (fun _ => k))
  (at level 61, right associativity) : api_scope.
Local Open Scope api_scope.

(** A list comprehension [[f(x) for x in xs]]. *)
Fixpoint for_each `{Collaborators} {Self A B} (f : A -> M Self B) (xs : list A)
  : M Self (list B) :=
  match xs with
  | [] => ret []
  | x :: xs' => y <- f x ;; ys <- for_each f xs' ;; ret (y :: ys)
  end.

(** ** class Episode *)
Module Episode.
Record t : Type := mk {
  _episode : EpisodeRef;
  title : string;
  url : string;
  is_new : bool;
  is_downloaded : bool;
  is_deleted : bool
}.

Section Methods.
Context `{K : Collaborators}.

(** [__init__]: [and] short-circuits, so [is_played] is read only when
    the state is [STATE_NORMAL]; the state is read once per
    comparison. *)
Definition __init__ {Self} (e : EpisodeRef) : M Self t :=
  title <- read (EEpisodeTitle e) (episode_title e) ;;
  url <- read (EEpisodeUrl e) (episode_url e) ;;
  st <- read (EEpisodeState e) (episode_state e) ;;
  is_new <- (if st =? STATE_NORMAL
             then played <- read (EEpisodeIsPlayed e) (episode_is_played e) ;;
                  ret (negb played)
             else ret false) ;;
  st' <- read (EEpisodeState e) (episode_state e) ;;
  let is_downloaded := st' =? STATE_DOWNLOADED in
  st'' <- read (EEpisodeState e) (episode_state e) ;;
  let is_deleted := st'' =? STATE_DELETED in
  ret (mk e title url is_new is_downloaded is_deleted).

Definition download : M t unit :=
  s <- get_self ;;
  task <- call (ENewDownloadTask (_episode s)) (DownloadTask (_episode s)) ;;
  call (ETaskSetStatus task QUEUED) (task_set_status task QUEUED) ;;;
  call (ETaskRun task) (task_run task).
End Methods.
End Episode.

(** ** class Podcast *)
Module Podcast.
Record t : Type := mk {
  _podcast : option ChannelRef;
  title : string;
  url : string
}.

Section Methods.
Context `{K : Collaborators}.

Definition __init__ {Self} (c : ChannelRef) : M Self t :=
  title <- read (EChannelTitle c) (channel_title c) ;;
  url <- read (EChannelUrl c) (channel_url c) ;;
  ret (mk (Some c) title url).

(** [self._podcast.attr]: on a cleared reference Python raises
    AttributeError before anything is called. *)
Definition podcast_attr (attr : string) : M t ChannelRef :=
  s <- get_self ;;
  match _podcast s with
  | Some c => ret c
  | None => raise (AttributeError attr)
  end.

Definition get_episodes : M t (list Episode.t) :=
  c <- podcast_attr "get_all_episodes" ;;
  es <- call (EGetAllEpisodes c) (get_all_episodes c) ;;
  for_each Episode.__init__ es.

Definition rename (new_title : string) : M t unit :=
  c <- podcast_attr "set_custom_title" ;;
  call (ESetCustomTitle c new_title) (set_custom_title c new_title) ;;;
  c <- podcast_attr "title" ;;
  v <- read (EChannelTitle c) (channel_title c) ;;
  s <- get_self ;;
  put_self (mk (_podcast s) v (url s)) ;;;
  c <- podcast_attr "save" ;;
  call (ESave c) (channel_save c).

Definition delete : M t unit :=
  c <- podcast_attr "remove_downloaded" ;;
  call (ERemoveDownloaded c) (remove_downloaded c) ;;;
  c <- podcast_attr "delete" ;;
  call (EDelete c) (channel_delete c) ;;;
  s <- get_self ;;
  put_self (mk None (title s) (url s)).

Definition update : M t unit :=
  c <- podcast_attr "update" ;;
  call (EUpdate c max_episodes_per_feed) (channel_update c max_episodes_per_feed).
End Methods.
End Podcast.

(** ** Module-level functions *)
Section Functions.
Context `{K : Collaborators}.

Definition get_podcasts : M unit (list Podcast.t) :=
  ps <- call (ELoadFromDb download_dir) (load_from_db download_dir) ;;
  for_each Podcast.__init__ ps.

Definition get_podcast (url : string) : M unit (option Podcast.t) :=
  url <- read (ENormalizeFeedUrl url) (fun _ => normalize_feed_url url) ;;
  channel <- call (ELoad url false None download_dir)
                  (load url false None download_dir) ;;
  match channel with
  | None => ret None
  | Some c => p <- Podcast.__init__ c ;; ret (Some p)
  end.

Definition create_podcast (url : string) (title : option string)
  : M unit (option Podcast.t) :=
  url <- read (ENormalizeFeedUrl url) (fun _ => normalize_feed_url url) ;;
  podcast <- call (ELoad url true (Some max_episodes_per_feed) download_dir)
                  (load url true (Some max_episodes_per_feed) download_dir) ;;
  match podcast with
  | Some c =>
      match title with
      | Some v => call (ESetCustomTitle c v) (set_custom_title c v)
      | None => ret tt
      end ;;;
      call (ESave c) (channel_save c) ;;;
      p <- Podcast.__init__ c ;;
      ret (Some p)
  | None => ret None
  end.

Definition synchronize_device : M unit unit :=
  call ESynchronizeDevice console_synchronize_device.

Definition finish : M unit bool :=
  podcasts <- call (ELoadFromDb download_dir) (load_from_db download_dir) ;;
  exporter <- call (ENewExporter subscription_file) (Exporter subscription_file) ;;
  call (EExporterWrite exporter podcasts) (exporter_write exporter podcasts) ;;;
  call EDbCommit db_commit ;;;
  ret true.

(** Running a module-level function, or a method on a receiver, from a
    world with an empty log. *)
Definition run_function {A} (m : M unit A) (w : World) : result A * Env unit :=
  m (mkEnv tt w []).

Definition run_method {Self A} (m : M Self A) (obj : Self) (w : World)
  : result A * Env Self :=
  m (mkEnv obj w []).
End Functions.

(** ** A reference implementation of the collaborators

    An in-memory store to run the facade on: channel and episode objects in
    a heap addressed by reference, the feeds the network serves, the
    subscription-list files on disk and a commit counter. *)
Module Reference.

Record channel : Type := mkChannel {
  ch_url : string;
  ch_feed_title : string;
  ch_custom_title : string;
  ch_episodes : list EpisodeRef;
  ch_subscribed : bool
}.

Record episode : Type := mkEpisode {
  ep_title : string;
  ep_url : string;
  ep_state : Z;
  ep_is_played : bool
}.

Record task : Type := mkTask {
  tk_episode : EpisodeRef;
  tk_status : Z
}.

Record world : Type := mkWorld {
  channels : list channel;
  episodes : list episode;
  tasks : list task;
  exporters : list string;
  feeds : list (string * string);
  files : list (string * list string);
  commits : nat
}.

Definition with_channels (w : world) (cs : list channel) : world :=
  mkWorld cs (episodes w) (tasks w) (exporters w) (feeds w) (files w) (commits w).

Definition with_episodes (w : world) (es : list episode) : world :=
  mkWorld (channels w) es (tasks w) (exporters w) (feeds w) (files w) (commits w).

Definition with_tasks (w : world) (ts : list task) : world :=
  mkWorld (channels w) (episodes w) ts (exporters w) (feeds w) (files w) (commits w).

Definition with_exporters (w : world) (xs : list string) : world :=
  mkWorld (channels w) (episodes w) (tasks w) xs (feeds w) (files w) (commits w).

Definition with_files (w : world) (fs : list (string * list string)) : world :=
  mkWorld (channels w) (episodes w) (tasks w) (exporters w) (feeds w) fs (commits w).

(** In-place update of the object at a reference; a dangling reference
    updates nothing. *)
Fixpoint modify {A} (n : nat) (f : A -> A) (l : list A) : list A :=
  match l, n with
  | [], _ => []
  | x :: l', O => f x :: l'
  | x :: l', S n' => x :: modify n' f l'
  end.

Fixpoint assoc {B} (k : string) (l : list (string * B)) : option B :=
  match l with
  | [] => None
  | (k', v) :: l' => if String.eqb k' k then Some v else assoc k l'
  end.

Definition state_normal : Z := 0.
Definition state_downloaded : Z := 1.
Definition state_deleted : Z := 2.
Definition task_queued : Z := 1.
Definition task_done : Z := 3.

(** Modelled from the spec: util.normalize_feed_url, a pure and idempotent
    canonicalization with scheme defaulting. *)
Definition normalize (url : string) : string :=
  if String.prefix "http://" url then url else "http://" ++ url.

Fixpoint find_subscribed (url : string) (cs : list channel) (i : nat)
  : option ChannelRef :=
  match cs with
  | [] => None
  | c :: cs' =>
      if ch_subscribed c && String.eqb (ch_url c) url then Some i
      else find_subscribed url cs' (S i)
  end.

Fixpoint subscribed_from (cs : list channel) (i : nat) : list ChannelRef :=
  match cs with
  | [] => []
  | c :: cs' =>
      if ch_subscribed c then i :: subscribed_from cs' (S i)
      else subscribed_from cs' (S i)
  end.

(** Modelled from the spec: PodcastChannel.load_from_db, all subscribed
    channel entities in the store's order. *)
Definition ref_load_from_db (dir : string) (w : world)
  : result (list ChannelRef) * world :=
  (Ok (subscribed_from (channels w) 0), w).

(** Modelled from the spec: PodcastChannel.load, the subscription for a URL
    or absent; with [create] a new channel object is made from the feed the
    URL serves, absent when there is no such feed.  The new channel enters
    the subscription list when it is saved. *)
Definition ref_load (url : string) (create : bool) (max_episodes : option Z)
  (dir : string) (w : world) : result (option ChannelRef) * world :=
  match find_subscribed url (channels w) 0 with
  | Some c => (Ok (Some c), w)
  | None =>
      if create then
        match assoc url (feeds w) with
        | Some t =>
            (Ok (Some (length (channels w))),
             with_channels w (channels w ++ [mkChannel url t EmptyString [] false]))
        | None => (Ok None, w)
        end
      else (Ok None, w)
  end.

(** Modelled from the spec: the channel's display title is the custom title
    when one is set, the feed's advertised title otherwise. *)
Definition ref_title (c : ChannelRef) (w : world) : string :=
  match nth_error (channels w) c with
  | Some ch =>
      if String.eqb (ch_custom_title ch) EmptyString then ch_feed_title ch
      else ch_custom_title ch
  | None => EmptyString
  end.

Definition ref_url (c : ChannelRef) (w : world) : string :=
  match nth_error (channels w) c with
  | Some ch => ch_url ch
  | None => EmptyString
  end.

Definition ref_get_all_episodes (c : ChannelRef) (w : world)
  : result (list EpisodeRef) * world :=
  match nth_error (channels w) c with
  | Some ch => (Ok (ch_episodes ch), w)
  | None => (Ok [], w)
  end.

Definition on_channel (c : ChannelRef) (f : channel -> channel) (w : world)
  : result unit * world :=
  (Ok tt, with_channels w (modify c f (channels w))).

Definition ref_set_custom_title (c : ChannelRef) (t : string) :=
  on_channel c (fun ch =>
    mkChannel (ch_url ch) (ch_feed_title ch) t (ch_episodes ch) (ch_subscribed ch)).

Definition set_subscribed (b : bool) (ch : channel) : channel :=
  mkChannel (ch_url ch) (ch_feed_title ch) (ch_custom_title ch) (ch_episodes ch) b.

(** Modelled from the spec: save persists the channel as a subscription. *)
Definition ref_save (c : ChannelRef) := on_channel c (set_subscribed true).

(** A store whose title column holds eight characters: saving cuts the
    custom title to that width. *)
Definition truncating_save (c : ChannelRef) :=
  on_channel c (fun ch =>
    mkChannel (ch_url ch) (ch_feed_title ch)
      (String.substring 0 8 (ch_custom_title ch)) (ch_episodes ch) true).

Definition ref_delete (c : ChannelRef) := on_channel c (set_subscribed false).

Definition drop_download (ep : episode) : episode :=
  if ep_state ep =? state_downloaded
  then mkEpisode (ep_title ep) (ep_url ep) state_deleted (ep_is_played ep)
  else ep.

(** Modelled from the spec: remove_downloaded removes the downloaded content
    of every episode of the channel. *)
Definition ref_remove_downloaded (c : ChannelRef) (w : world)
  : result unit * world :=
  match nth_error (channels w) c with
  | Some ch =>
      (Ok tt,
       with_episodes w
         (fold_left (fun es e => modify e drop_download es) (ch_episodes ch)
            (episodes w)))
  | None => (Ok tt, w)
  end.

Definition ref_update (c : ChannelRef) (max_episodes : Z) (w : world)
  : result unit * world := (Ok tt, w).

Definition ref_episode {A} (get : episode -> A) (d : A) (e : EpisodeRef)
  (w : world) : A :=
  match nth_error (episodes w) e with
  | Some ep => get ep
  | None => d
  end.

(** Modelled from the spec: the downloader builds a task from an episode
    entity; the task has a status and a synchronous run, after which the
    episode is downloaded. *)
Definition ref_DownloadTask (e : EpisodeRef) (w : world)
  : result TaskRef * world :=
  (Ok (length (tasks w)), with_tasks w (tasks w ++ [mkTask e 0])).

Definition ref_task_set_status (t : TaskRef) (st : Z) (w : world)
  : result unit * world :=
  (Ok tt, with_tasks w (modify t (fun tk => mkTask (tk_episode tk) st) (tasks w))).

Definition ref_task_run (t : TaskRef) (w : world) : result unit * world :=
  match nth_error (tasks w) t with
  | Some tk =>
      (Ok tt,
       with_tasks
         (with_episodes w
            (modify (tk_episode tk)
               (fun ep => mkEpisode (ep_title ep) (ep_url ep) state_downloaded
                            (ep_is_played ep))
               (episodes w)))
         (modify t (fun tk => mkTask (tk_episode tk) task_done) (tasks w)))
  | None => (Raise (CollaboratorError "no such task"), w)
  end.

Definition ref_Exporter (filename : string) (w : world)
  : result ExporterRef * world :=
  (Ok (length (exporters w)), with_exporters w (exporters w ++ [filename])).

Fixpoint remove_file {B} (k : string) (l : list (string * B)) : list (string * B) :=
  match l with
  | [] => []
  | (k', v) :: l' =>
      if String.eqb k' k then remove_file k l' else (k', v) :: remove_file k l'
  end.

(** Modelled from the spec: the exporter writes the given entities to its
    file, replacing the file when it exists. *)
Definition ref_exporter_write (x : ExporterRef) (podcasts : list ChannelRef)
  (w : world) : result unit * world :=
  match nth_error (exporters w) x with
  | Some f =>
      (Ok tt,
       with_files w
         ((f, map (fun c => ref_url c w) podcasts) :: remove_file f (files w)))
  | None => (Raise (CollaboratorError "no such exporter"), w)
  end.

Definition ref_commit (w : world) : result unit * world :=
  (Ok tt,
   mkWorld (channels w) (episodes w) (tasks w) (exporters w) (feeds w) (files w)
     (S (commits w))).

Definition collaborators_with
  (save : ChannelRef -> world -> result unit * world) : Collaborators := {|
  World := world;
  STATE_NORMAL := state_normal;
  STATE_DOWNLOADED := state_downloaded;
  STATE_DELETED := state_deleted;
  subscription_file := "/home/user/.config/gpodder/channels.opml";
  max_episodes_per_feed := 200;
  download_dir := "/home/user/gpodder-downloads";
  normalize_feed_url := normalize;
  load_from_db := ref_load_from_db;
  load := ref_load;
  channel_title := ref_title;
  channel_url := ref_url;
  get_all_episodes := ref_get_all_episodes;
  set_custom_title := ref_set_custom_title;
  channel_save := save;
  remove_downloaded := ref_remove_downloaded;
  channel_delete := ref_delete;
  channel_update := ref_update;
  episode_title := ref_episode ep_title EmptyString;
  episode_url := ref_episode ep_url EmptyString;
  episode_state := ref_episode ep_state state_normal;
  episode_is_played := ref_episode ep_is_played false;
  QUEUED := task_queued;
  DownloadTask := ref_DownloadTask;
  task_set_status := ref_task_set_status;
  task_run := ref_task_run;
  Exporter := ref_Exporter;
  exporter_write := ref_exporter_write;
  db_commit := ref_commit;
  console_synchronize_device := fun w => (Ok tt, w)
|}.

Definition collaborators : Collaborators := collaborators_with ref_save.

Definition truncating : Collaborators := collaborators_with truncating_save.

(** A small library: one subscription with a new, a downloaded and a deleted
    episode, and one feed on the network that is not subscribed to. *)
Definition library : world := {|
  channels := [mkChannel "http://example.org/linux.xml" "Linux Weekly" EmptyString
                 [0; 1; 2]%nat true];
  episodes := [mkEpisode "Kernel news" "http://example.org/1.ogg" state_normal false;
               mkEpisode "Interview" "http://example.org/2.ogg" state_downloaded true;
               mkEpisode "Old show" "http://example.org/3.ogg" state_deleted true];
  tasks := [];
  exporters := [];
  feeds := [("http://example.com/feed", "Example Cast")];
  files := [("/home/user/.config/gpodder/channels.opml", ["http://gone.example/rss"])];
  commits := 0
|}.

End Reference.

(** ** Vocabulary of the properties and sample data *)

(** Unfolds the facade and the monad down to the collaborator calls. *)
Ltac unfold_api :=
  cbv beta delta
    [run_method run_function
     Podcast.rename Podcast.delete Podcast.update Podcast.get_episodes
     Podcast.__init__ Podcast.podcast_attr Episode.__init__ Episode.download
     get_podcasts get_podcast create_podcast synchronize_device finish
     bind ret raise get_self put_self call read];
  cbn [self world log Podcast._podcast Podcast.title Podcast.url
       Episode._episode app fst snd].

(** Replaces a collaborator call in the goal by its known outcome. *)
Ltac step_with H := rewrite H; cbn [self world log app fst snd
  Podcast._podcast Podcast.title Podcast.url Episode._episode].

(** The projection a lookup of the one subscription of
    [Reference.library] returns. *)
Definition linux_weekly : Podcast.t :=
  Podcast.mk (Some 0%nat) "Linux Weekly" "http://example.org/linux.xml".

(** What a call of [get_podcast] may ask of the collaborators: the
    normalization of its argument, one lookup of the normalized URL with
    creation disabled, and reads of the found channel's title and URL. *)
Definition lookup_event `{K : Collaborators} (url : string) (ev : Event) : Prop :=
  ev = ENormalizeFeedUrl url
  \/ ev = ELoad (normalize_feed_url url) false None download_dir
  \/ exists c, ev = EChannelTitle c \/ ev = EChannelUrl c.

(** The call that applies the title override, when there is one. *)
Definition title_override_events (c : ChannelRef) (title : option string)
  : list Event :=
  match title with
  | Some v => [ESetCustomTitle c v]
  | None => []
  end.

(** The world after the title override was applied, when there is one. *)
Definition title_override_done `{K : Collaborators} (c : ChannelRef)
  (title : option string) (w1 w2 : World) : Prop :=
  match title with
  | Some v => set_custom_title c v w1 = (Ok tt, w2)
  | None => w2 = w1
  end.

(** The load [create_podcast] issues: creation enabled, bounded by the
    configured number of episodes per feed. *)
Definition creating_load `{K : Collaborators} (url : string) : Event :=
  ELoad (normalize_feed_url url) true (Some max_episodes_per_feed) download_dir.

(** [Reference.library] with a second channel object, made from the feed
    at "http://example.com/feed". *)
Definition library_with_feed (custom : string) (subscribed : bool)
  : Reference.world :=
  Reference.with_channels Reference.library
    [Reference.mkChannel "http://example.org/linux.xml" "Linux Weekly"
       EmptyString [0; 1; 2]%nat true;
     Reference.mkChannel "http://example.com/feed" "Example Cast"
       custom [] subscribed].

(** [Reference.library] after finish: the subscription file lists the one
    subscribed feed, its former content is gone, and one commit was made. *)
Definition library_finished : Reference.world :=
  Reference.mkWorld (Reference.channels Reference.library)
    (Reference.episodes Reference.library) []
    ["/home/user/.config/gpodder/channels.opml"]
    (Reference.feeds Reference.library)
    [("/home/user/.config/gpodder/channels.opml",
      ["http://example.org/linux.xml"])]
    1.

(** The attribute reads of [Episode.__init__], in order. *)
Definition episode_reads `{K : Collaborators} (e : EpisodeRef) (w : World)
  : list Event :=
  ([EEpisodeTitle e; EEpisodeUrl e; EEpisodeState e]
   ++ (if episode_state e w =? STATE_NORMAL then [EEpisodeIsPlayed e] else [])
   ++ [EEpisodeState e; EEpisodeState e])%list.

(** The projection of an episode entity as the world stands. *)
Definition snapshot `{K : Collaborators} (e : EpisodeRef) (w : World)
  : Episode.t :=
  Episode.mk e (episode_title e w) (episode_url e w)
    ((episode_state e w =? STATE_NORMAL) && negb (episode_is_played e w))
    (episode_state e w =? STATE_DOWNLOADED)
    (episode_state e w =? STATE_DELETED).

(** How many of the three flags of a projection are set. *)
Definition flags_set (p : Episode.t) : nat :=
  length (filter (fun b : bool => b)
            [Episode.is_new p; Episode.is_downloaded p; Episode.is_deleted p]).

(** [Reference.library] after the subscription is deleted: the downloaded
    episode lost its file and the channel left the subscription list. *)
Definition library_deleted : Reference.world :=
  Reference.with_episodes
    (Reference.with_channels Reference.library
       [Reference.mkChannel "http://example.org/linux.xml" "Linux Weekly"
          EmptyString [0; 1; 2]%nat false])
    [Reference.mkEpisode "Kernel news" "http://example.org/1.ogg"
       Reference.state_normal false;
     Reference.mkEpisode "Interview" "http://example.org/2.ogg"
       Reference.state_deleted true;
     Reference.mkEpisode "Old show" "http://example.org/3.ogg"
       Reference.state_deleted true].

(** What a call of [rename] may ask of the channel entity. *)
Definition rename_event (c : ChannelRef) (new_title : string) (ev : Event)
  : Prop :=
  ev = ESetCustomTitle c new_title \/ ev = EChannelTitle c \/ ev = ESave c.

(** The projection of the new episode of [Reference.library]. *)
Definition kernel_news : Episode.t :=
  Episode.mk 0%nat "Kernel news" "http://example.org/1.ogg" true false false.

(** [Reference.library] with a task for its new episode, at the given task
    status and episode state. *)
Definition library_task (status state : Z) : Reference.world :=
  Reference.with_tasks
    (Reference.with_episodes Reference.library
       [Reference.mkEpisode "Kernel news" "http://example.org/1.ogg" state false;
        Reference.mkEpisode "Interview" "http://example.org/2.ogg"
          Reference.state_downloaded true;
        Reference.mkEpisode "Old show" "http://example.org/3.ogg"
          Reference.state_deleted true])
    [Reference.mkTask 0%nat status].

(** The projection [Podcast(c)] builds as the world stands. *)
Definition project `{K : Collaborators} (c : ChannelRef) (w : World)
  : Podcast.t :=
  Podcast.mk (Some c) (channel_title c w) (channel_url c w).

(** The attribute reads of [Podcast.__init__] over a list of channels. *)
Definition podcast_reads (cs : list ChannelRef) : list Event :=
  flat_map (fun c => [EChannelTitle c; EChannelUrl c]) cs.

(** The attribute reads of [Episode.__init__] over a list of episodes. *)
Definition episodes_reads `{K : Collaborators} (es : list EpisodeRef)
  (w : World) : list Event :=
  flat_map (fun e => episode_reads e w) es.

(** The lookup [get_podcast] issues: creation disabled, no episode bound. *)
Definition lookup_load `{K : Collaborators} (url : string) : Event :=
  ELoad (normalize_feed_url url) false None download_dir.

(** ** Collaborators that fail

    [faulty K fails] behaves as [K], but a call whose event satisfies
    [fails] raises and leaves the world alone. *)
Definition guard {W A : Type} (fails : bool) (h : W -> result A * W)
  : W -> result A * W :=
  fun w => if fails then (Raise (CollaboratorError "injected fault"), w)
           else h w.

Definition faulty (K : Collaborators) (fails : Event -> bool) : Collaborators := {|
  World := @World K;
  STATE_NORMAL := @STATE_NORMAL K;
  STATE_DOWNLOADED := @STATE_DOWNLOADED K;
  STATE_DELETED := @STATE_DELETED K;
  subscription_file := @subscription_file K;
  max_episodes_per_feed := @max_episodes_per_feed K;
  download_dir := @download_dir K;
  normalize_feed_url := @normalize_feed_url K;
  load_from_db := fun d => guard (fails (ELoadFromDb d)) (@load_from_db K d);
  load := fun u c m d => guard (fails (ELoad u c m d)) (@load K u c m d);
  channel_title := @channel_title K;
  channel_url := @channel_url K;
  get_all_episodes := fun c =>
    guard (fails (EGetAllEpisodes c)) (@get_all_episodes K c);
  set_custom_title := fun c t =>
    guard (fails (ESetCustomTitle c t)) (@set_custom_title K c t);
  channel_save := fun c => guard (fails (ESave c)) (@channel_save K c);
  remove_downloaded := fun c =>
    guard (fails (ERemoveDownloaded c)) (@remove_downloaded K c);
  channel_delete := fun c => guard (fails (EDelete c)) (@channel_delete K c);
  channel_update := fun c m => guard (fails (EUpdate c m)) (@channel_update K c m);
  episode_title := @episode_title K;
  episode_url := @episode_url K;
  episode_state := @episode_state K;
  episode_is_played := @episode_is_played K;
  QUEUED := @QUEUED K;
  DownloadTask := fun e => guard (fails (ENewDownloadTask e)) (@DownloadTask K e);
  task_set_status := fun t st =>
    guard (fails (ETaskSetStatus t st)) (@task_set_status K t st);
  task_run := fun t => guard (fails (ETaskRun t)) (@task_run K t);
  Exporter := fun f => guard (fails (ENewExporter f)) (@Exporter K f);
  exporter_write := fun x ps =>
    guard (fails (EExporterWrite x ps)) (@exporter_write K x ps);
  db_commit := guard (fails EDbCommit) (@db_commit K);
  console_synchronize_device :=
    guard (fails ESynchronizeDevice) (@console_synchronize_device K)
|}.

Definition is_set_custom_title (ev : Event) : bool :=
  match ev with ESetCustomTitle _ _ => true | _ => false end.

Definition is_save (ev : Event) : bool :=
  match ev with ESave _ => true | _ => false end.

Definition is_delete (ev : Event) : bool :=
  match ev with EDelete _ => true | _ => false end.

Definition is_task_run (ev : Event) : bool :=
  match ev with ETaskRun _ => true | _ => false end.

Definition is_exporter_write (ev : Event) : bool :=
  match ev with EExporterWrite _ _ => true | _ => false end.

(** The reference store with one failing operation. *)
Definition reference_failing (fails : Event -> bool) : Collaborators :=
  faulty Reference.collaborators fails.

(** * Properties *)

(** ** Running collaborator calls *)
Section MonadFacts.
Context `{K : Collaborators} {Self : Type}.

Lemma bind_ok {A B} (m : M Self A) (k : A -> M Self B) s a s' :
  m s = (Ok a, s') -> bind m k s = k a s'.
Proof. intros E. unfold bind. now rewrite E. Qed.

Lemma bind_raise {A B} (m : M Self A) (k : A -> M Self B) s e s' :
  m s = (Raise e, s') -> bind m k s = (Raise e, s').
Proof. intros E. unfold bind. now rewrite E. Qed.

Lemma call_runs {A} ev (h : World -> result A * World) (s : Env Self) r w' :
  h (world s) = (r, w') ->
  call ev h s = (r, mkEnv (self s) w' (log s ++ [ev])%list).
Proof. intros E. unfold call. now rewrite E. Qed.

(** The receiver is not reachable from a collaborator: a call changes the
    world and the log only. *)
Lemma call_keeps_self {A} ev (h : World -> result A * World) (s : Env Self) :
  self (snd (call ev h s)) = self s.
Proof. unfold call. now destruct (h (world s)). Qed.

Lemma call_world {A} ev (h : World -> result A * World) (s : Env Self) :
  world (snd (call ev h s)) = snd (h (world s)).
Proof. unfold call. now destruct (h (world s)). Qed.

Lemma call_log {A} ev (h : World -> result A * World) (s : Env Self) :
  log (snd (call ev h s)) = (log s ++ [ev])%list.
Proof. unfold call. now destruct (h (world s)). Qed.
End MonadFacts.

(** ** Podcast.rename *)

Example get_podcast_linux_weekly :
  fst (run_function (K := Reference.collaborators)
         (get_podcast "example.org/linux.xml") Reference.library)
  = Ok (Some linux_weekly).
Proof. reflexivity. Qed.

(** C1, as amended: Podcast.rename sets the custom title on the underlying
    channel entity, then refreshes the projection's cached title from the
    entity, and only then saves the entity.  When both collaborator calls
    return, rename returns, and the projection's title is the entity's title
    as it was between set_custom_title and save; it is the post-save title
    whenever save leaves the entity's title as it was. *)
Theorem rename_refreshes_title_then_saves `{K : Collaborators}
  (p : Podcast.t) (c : ChannelRef) (new_title : string) (w w1 w2 : World) :
  Podcast._podcast p = Some c ->
  set_custom_title c new_title w = (Ok tt, w1) ->
  channel_save c w1 = (Ok tt, w2) ->
  exists p',
    run_method (Podcast.rename new_title) p w
    = (Ok tt, mkEnv p' w2 [ESetCustomTitle c new_title; EChannelTitle c; ESave c])
    /\ Podcast.title p' = channel_title c w1
    /\ (channel_title c w2 = channel_title c w1 ->
        Podcast.title p' = channel_title c w2).
Proof.
  intros Hp Hset Hsave.
  exists (Podcast.mk (Some c) (channel_title c w1) (Podcast.url p)).
  split; [| split; [reflexivity | intros E; symmetry; exact E]].
  unfold_api. step_with Hp. step_with Hset. step_with Hp. step_with Hp.
  step_with Hsave. reflexivity.
Qed.

Lemma rename_refreshes_title_then_saves_witness :
  exists p',
    run_method (K := Reference.collaborators) (Podcast.rename "LW")
      linux_weekly Reference.library
    = (Ok tt,
       mkEnv (K := Reference.collaborators) p'
         (Reference.with_channels Reference.library
            [Reference.mkChannel "http://example.org/linux.xml" "Linux Weekly"
               "LW" [0; 1; 2]%nat true])
         [ESetCustomTitle 0%nat "LW"; EChannelTitle 0%nat; ESave 0%nat])
    /\ Podcast.title p' = "LW".
Proof.
  destruct (rename_refreshes_title_then_saves (K := Reference.collaborators)
              linux_weekly 0%nat "LW" Reference.library
              (Reference.with_channels Reference.library
                 [Reference.mkChannel "http://example.org/linux.xml"
                    "Linux Weekly" "LW" [0; 1; 2]%nat true])
              (Reference.with_channels Reference.library
                 [Reference.mkChannel "http://example.org/linux.xml"
                    "Linux Weekly" "LW" [0; 1; 2]%nat true])
              eq_refl eq_refl eq_refl) as (p' & Hrun & Htitle & _).
  exists p'. split; [exact Hrun | exact Htitle].
Defined.

(** C1, as stated, fails.  The title is read back before the save, not
    after it: on the reference store the calls on the entity are
    set_custom_title, title, save in that order.  With a store whose save
    cuts the title, the projection keeps the title from before the save and
    differs from the entity's post-save title. *)
Lemma rename_refresh_after_save_counterexample :
  log (snd (run_method (K := Reference.collaborators) (Podcast.rename "LW")
              linux_weekly Reference.library))
  = [ESetCustomTitle 0%nat "LW"; EChannelTitle 0%nat; ESave 0%nat]
  /\ log (snd (run_method (K := Reference.collaborators) (Podcast.rename "LW")
                 linux_weekly Reference.library))
     <> [ESetCustomTitle 0%nat "LW"; ESave 0%nat; EChannelTitle 0%nat]
  /\ let out := run_method (K := Reference.truncating)
                  (Podcast.rename "Linux Weekly News") linux_weekly
                  Reference.library in
     fst out = Ok tt
     /\ Podcast.title (self (snd out)) = "Linux Weekly News"
     /\ channel_title (Collaborators := Reference.truncating) 0%nat
          (world (snd out)) = "Linux We"
     /\ Podcast.title (self (snd out))
        <> channel_title (Collaborators := Reference.truncating) 0%nat
             (world (snd out)).
Proof.
  cbv zeta. repeat split; try reflexivity; vm_compute; discriminate.
Qed.

(** ** get_podcast *)

(** C2: get_podcast normalizes the URL and looks the normalized URL up with
    creation disabled; when the lookup finds no subscription it returns None
    and does not raise.  Whatever the lookup answers, the world is left as
    that lookup left it and no other collaborator is called but for reads of
    the found channel: nothing is created or saved. *)
Theorem get_podcast_looks_up_without_creating `{K : Collaborators}
  (url : string) (w : World) (r : result (option ChannelRef)) (w1 : World) :
  load (normalize_feed_url url) false None download_dir w = (r, w1) ->
  (r = Ok None ->
   run_function (get_podcast url) w
   = (Ok None,
      mkEnv tt w1
        [ENormalizeFeedUrl url;
         ELoad (normalize_feed_url url) false None download_dir]))
  /\ world (snd (run_function (get_podcast url) w)) = w1
  /\ (forall ev, In ev (log (snd (run_function (get_podcast url) w))) ->
                 lookup_event url ev).
Proof.
  intros Hload. unfold lookup_event. unfold_api. step_with Hload.
  destruct r as [[c |] | e]; cbn.
  - split; [discriminate |]. split; [reflexivity |].
    intros ev [<- | [<- | [<- | [<- | []]]]]; eauto 6.
  - split; [reflexivity |]. split; [reflexivity |].
    intros ev [<- | [<- | []]]; eauto.
  - split; [discriminate |]. split; [reflexivity |].
    intros ev [<- | [<- | []]]; eauto.
Qed.

Lemma get_podcast_looks_up_without_creating_witness :
  run_function (K := Reference.collaborators)
    (get_podcast "example.com/feed") Reference.library
  = (Ok None,
     mkEnv (K := Reference.collaborators) tt Reference.library
       [ENormalizeFeedUrl "example.com/feed";
        ELoad "http://example.com/feed" false None
          "/home/user/gpodder-downloads"]).
Proof.
  exact (proj1 (get_podcast_looks_up_without_creating
                  (K := Reference.collaborators) "example.com/feed"
                  Reference.library (Ok None) Reference.library eq_refl)
               eq_refl).
Defined.

(** ** create_podcast *)

(** C3: create_podcast returns None when the creating load returns None.
    When the load returns a channel, a supplied title is set on it before the
    save, the channel is saved in either case, and the value returned is the
    projection of that channel, built after the save. *)
Theorem create_podcast_saves_before_returning `{K : Collaborators}
  (url : string) (title : option string) (w : World)
  (r : result (option ChannelRef)) (w1 : World) :
  load (normalize_feed_url url) true (Some max_episodes_per_feed) download_dir w
  = (r, w1) ->
  match r with
  | Ok None =>
      run_function (create_podcast url title) w
      = (Ok None, mkEnv tt w1 [ENormalizeFeedUrl url; creating_load url])
  | Ok (Some c) =>
      forall w2 w3,
        title_override_done c title w1 w2 ->
        channel_save c w2 = (Ok tt, w3) ->
        run_function (create_podcast url title) w
        = (Ok (Some (Podcast.mk (Some c) (channel_title c w3) (channel_url c w3))),
           mkEnv tt w3
             ([ENormalizeFeedUrl url; creating_load url]
              ++ title_override_events c title
              ++ [ESave c; EChannelTitle c; EChannelUrl c])%list)
  | Raise e =>
      run_function (create_podcast url title) w
      = (Raise e, mkEnv tt w1 [ENormalizeFeedUrl url; creating_load url])
  end.
Proof.
  intros Hload. unfold creating_load.
  destruct r as [[c |] | e].
  - intros w2 w3 Htitle Hsave. unfold_api. step_with Hload.
    destruct title as [v |]; cbn in Htitle |- *.
    + step_with Htitle. step_with Hsave. reflexivity.
    + subst w2. step_with Hsave. reflexivity.
  - unfold_api. step_with Hload. reflexivity.
  - unfold_api. step_with Hload. reflexivity.
Qed.

Lemma create_podcast_saves_before_returning_witness :
  run_function (K := Reference.collaborators)
    (create_podcast "example.com/feed" (Some "X")) Reference.library
  = (Ok (Some (Podcast.mk (Some 1%nat) "X" "http://example.com/feed")),
     mkEnv (K := Reference.collaborators) tt (library_with_feed "X" true)
       [ENormalizeFeedUrl "example.com/feed";
        ELoad "http://example.com/feed" true (Some 200)
          "/home/user/gpodder-downloads";
        ESetCustomTitle 1%nat "X"; ESave 1%nat;
        EChannelTitle 1%nat; EChannelUrl 1%nat])
  /\ run_function (K := Reference.collaborators)
       (create_podcast "example.com/nothing" None) Reference.library
     = (Ok None,
        mkEnv (K := Reference.collaborators) tt Reference.library
          [ENormalizeFeedUrl "example.com/nothing";
           ELoad "http://example.com/nothing" true (Some 200)
             "/home/user/gpodder-downloads"]).
Proof.
  split.
  - exact (create_podcast_saves_before_returning
             (K := Reference.collaborators) "example.com/feed" (Some "X")
             Reference.library (Ok (Some 1%nat))
             (library_with_feed EmptyString false) eq_refl
             (library_with_feed "X" false) (library_with_feed "X" true)
             eq_refl eq_refl).
  - exact (create_podcast_saves_before_returning
             (K := Reference.collaborators) "example.com/nothing" None
             Reference.library (Ok None) Reference.library eq_refl).
Defined.

(** ** finish *)

(** C4: finish loads the subscription list from the store, hands exactly
    that list to an exporter made for the configured subscription file,
    commits the store, and returns True; whenever finish returns, it returns
    True. *)
Theorem finish_exports_commits_returns_true `{K : Collaborators}
  (w w1 w2 w3 w4 : World) (podcasts : list ChannelRef) (x : ExporterRef) :
  load_from_db download_dir w = (Ok podcasts, w1) ->
  Exporter subscription_file w1 = (Ok x, w2) ->
  exporter_write x podcasts w2 = (Ok tt, w3) ->
  db_commit w3 = (Ok tt, w4) ->
  run_function finish w
  = (Ok true,
     mkEnv tt w4
       [ELoadFromDb download_dir; ENewExporter subscription_file;
        EExporterWrite x podcasts; EDbCommit])
  /\ (forall w0 b env, run_function finish w0 = (Ok b, env) -> b = true).
Proof.
  intros Hload Hnew Hwrite Hcommit. split.
  - unfold_api. step_with Hload. step_with Hnew. step_with Hwrite.
    step_with Hcommit. reflexivity.
  - intros w0 b env. unfold_api.
    destruct (load_from_db download_dir w0) as [[ps | e] u1]; cbn;
      [| discriminate].
    destruct (Exporter subscription_file u1) as [[y | e] u2]; cbn;
      [| discriminate].
    destruct (exporter_write y ps u2) as [[[] | e] u3]; cbn; [| discriminate].
    destruct (db_commit u3) as [[[] | e] u4]; cbn; [| discriminate].
    intros E. now inversion E.
Qed.

Lemma finish_exports_commits_returns_true_witness :
  run_function (K := Reference.collaborators) finish Reference.library
  = (Ok true,
     mkEnv (K := Reference.collaborators) tt library_finished
       [ELoadFromDb "/home/user/gpodder-downloads";
        ENewExporter "/home/user/.config/gpodder/channels.opml";
        EExporterWrite 0%nat [0%nat]; EDbCommit]).
Proof.
  exact (proj1 (finish_exports_commits_returns_true
                  (K := Reference.collaborators) Reference.library
                  Reference.library
                  (Reference.with_exporters Reference.library
                     ["/home/user/.config/gpodder/channels.opml"])
                  (Reference.with_files
                     (Reference.with_exporters Reference.library
                        ["/home/user/.config/gpodder/channels.opml"])
                     [("/home/user/.config/gpodder/channels.opml",
                       ["http://example.org/linux.xml"])])
                  library_finished [0%nat] 0%nat
                  eq_refl eq_refl eq_refl eq_refl)).
Defined.

(** ** Episode.__init__ *)

Lemma episode_init_runs `{K : Collaborators} {Self} (e : EpisodeRef)
  (s : Env Self) :
  Episode.__init__ e s
  = (Ok (snapshot e (world s)),
     mkEnv (self s) (world s) (log s ++ episode_reads e (world s))%list).
Proof.
  unfold snapshot, episode_reads. unfold_api.
  destruct (episode_state e (world s) =? STATE_NORMAL); cbn;
    repeat rewrite <- app_assoc; reflexivity.
Qed.

(** C5: with three distinct state constants, the projection built from an
    episode entity has at most one of is_new, is_downloaded, is_deleted set
    (for a state outside the three, none). *)
Theorem episode_flags_mutually_exclusive `{K : Collaborators}
  (e : EpisodeRef) (w : World) :
  STATE_NORMAL <> STATE_DOWNLOADED ->
  STATE_NORMAL <> STATE_DELETED ->
  STATE_DOWNLOADED <> STATE_DELETED ->
  exists p env,
    run_function (Episode.__init__ e) w = (Ok p, env) /\ (flags_set p <= 1)%nat.
Proof.
  intros Hnd Hnx Hdx.
  exists (snapshot e w). eexists. split.
  - unfold run_function. apply episode_init_runs.
  - unfold flags_set, snapshot; cbn.
    destruct (Z.eqb_spec (episode_state e w) STATE_NORMAL) as [En | _];
      destruct (Z.eqb_spec (episode_state e w) STATE_DOWNLOADED) as [Ed | _];
      destruct (Z.eqb_spec (episode_state e w) STATE_DELETED) as [Ex | _];
      try congruence;
      destruct (episode_is_played e w); cbn; lia.
Qed.

Lemma episode_flags_mutually_exclusive_witness :
  exists p env,
    run_function (K := Reference.collaborators) (Episode.__init__ 1%nat)
      Reference.library = (Ok p, env)
    /\ (flags_set p <= 1)%nat.
Proof.
  apply (episode_flags_mutually_exclusive (K := Reference.collaborators)
           1%nat Reference.library); discriminate.
Defined.

(** C6: the projection of an episode entity holds, computed from the entity
    when the projection is built, is_new = (state is STATE_NORMAL and the
    episode is not played), is_downloaded = (state is STATE_DOWNLOADED) and
    is_deleted = (state is STATE_DELETED); building it always succeeds and
    leaves the world as it was.  The flags are booleans stored in the
    projection, not references to the entity. *)
Theorem episode_init_computes_flags `{K : Collaborators}
  (e : EpisodeRef) (w : World) :
  exists p,
    run_function (Episode.__init__ e) w = (Ok p, mkEnv tt w (episode_reads e w))
    /\ Episode._episode p = e
    /\ Episode.title p = episode_title e w
    /\ Episode.url p = episode_url e w
    /\ Episode.is_new p
       = ((episode_state e w =? STATE_NORMAL) && negb (episode_is_played e w))
    /\ Episode.is_downloaded p = (episode_state e w =? STATE_DOWNLOADED)
    /\ Episode.is_deleted p = (episode_state e w =? STATE_DELETED).
Proof.
  exists (snapshot e w). split.
  - unfold run_function. now rewrite episode_init_runs.
  - repeat split.
Qed.

Example episode_projections_of_library :
  fst (run_method (K := Reference.collaborators) Podcast.get_episodes
         linux_weekly Reference.library)
  = Ok [Episode.mk 0%nat "Kernel news" "http://example.org/1.ogg" true false false;
        Episode.mk 1%nat "Interview" "http://example.org/2.ogg" false true false;
        Episode.mk 2%nat "Old show" "http://example.org/3.ogg" false false true].
Proof. reflexivity. Qed.

(** ** Podcast.delete *)

(** C7: Podcast.delete calls remove_downloaded on the channel entity, then
    delete on it, then clears the projection's reference.  Every method of
    the projection called after that raises AttributeError, without calling
    a collaborator. *)
Theorem delete_removes_then_invalidates `{K : Collaborators}
  (p : Podcast.t) (c : ChannelRef) (w w1 w2 : World) :
  Podcast._podcast p = Some c ->
  remove_downloaded c w = (Ok tt, w1) ->
  channel_delete c w1 = (Ok tt, w2) ->
  exists p',
    run_method Podcast.delete p w
    = (Ok tt, mkEnv p' w2 [ERemoveDownloaded c; EDelete c])
    /\ Podcast._podcast p' = None
    /\ forall (u : World) (new_title : string),
        run_method Podcast.get_episodes p' u
        = (Raise (AttributeError "get_all_episodes"), mkEnv p' u [])
        /\ run_method (Podcast.rename new_title) p' u
           = (Raise (AttributeError "set_custom_title"), mkEnv p' u [])
        /\ run_method Podcast.delete p' u
           = (Raise (AttributeError "remove_downloaded"), mkEnv p' u [])
        /\ run_method Podcast.update p' u
           = (Raise (AttributeError "update"), mkEnv p' u []).
Proof.
  intros Hp Hrm Hdel.
  exists (Podcast.mk None (Podcast.title p) (Podcast.url p)).
  split; [| split; [reflexivity | intros u new_title; repeat split]].
  unfold_api. step_with Hp. step_with Hrm. step_with Hp. step_with Hdel.
  reflexivity.
Qed.

Lemma delete_removes_then_invalidates_witness :
  exists p',
    run_method (K := Reference.collaborators) Podcast.delete linux_weekly
      Reference.library
    = (Ok tt,
       mkEnv (K := Reference.collaborators) p' library_deleted
         [ERemoveDownloaded 0%nat; EDelete 0%nat])
    /\ run_method (K := Reference.collaborators) (Podcast.rename "LW") p'
         library_deleted
       = (Raise (AttributeError "set_custom_title"),
          mkEnv (K := Reference.collaborators) p' library_deleted []).
Proof.
  destruct (delete_removes_then_invalidates (K := Reference.collaborators)
              linux_weekly 0%nat Reference.library
              (Reference.with_episodes Reference.library
                 (Reference.episodes library_deleted))
              library_deleted eq_refl eq_refl eq_refl)
    as (p' & Hrun & _ & Hdead).
  exists p'. split; [exact Hrun |].
  exact (proj1 (proj2 (Hdead library_deleted "LW"))).
Defined.

(** ** Podcast.rename and the URL *)

(** C8: Podcast.rename leaves the projection's url and the reference it
    wraps as they were, and asks nothing of the entity but set_custom_title,
    title and save.  With a channel entity whose set_custom_title and save
    leave its URL alone, the entity's URL after rename is its URL before.
    This holds however rename ends. *)
Theorem rename_keeps_url `{K : Collaborators}
  (p : Podcast.t) (c : ChannelRef) (new_title : string) (w : World) :
  Podcast._podcast p = Some c ->
  (forall u, channel_url c (snd (set_custom_title c new_title u)) = channel_url c u) ->
  (forall u, channel_url c (snd (channel_save c u)) = channel_url c u) ->
  let out := run_method (Podcast.rename new_title) p w in
  Podcast.url (self (snd out)) = Podcast.url p
  /\ Podcast._podcast (self (snd out)) = Some c
  /\ channel_url c (world (snd out)) = channel_url c w
  /\ (forall ev, In ev (log (snd out)) -> rename_event c new_title ev).
Proof.
  intros Hp Hset Hsave. cbv zeta. unfold rename_event. unfold_api.
  step_with Hp. specialize (Hset w).
  destruct (set_custom_title c new_title w) as [[[] | e] w1]; cbn in Hset |- *.
  - step_with Hp. step_with Hp. specialize (Hsave w1).
    destruct (channel_save c w1) as [r w2]; cbn in Hsave |- *.
    repeat split; try assumption.
    + congruence.
    + intros ev [<- | [<- | [<- | []]]]; auto.
  - repeat split; try assumption.
    intros ev [<- | []]; auto.
Qed.

Lemma reference_set_custom_title_keeps_url (c : ChannelRef) (t : string)
  (u : Reference.world) :
  Reference.ref_url c (snd (Reference.ref_set_custom_title c t u))
  = Reference.ref_url c u.
Proof.
  unfold Reference.ref_url, Reference.ref_set_custom_title, Reference.on_channel.
  cbn. generalize (Reference.channels u) as cs.
  induction c as [| c IH]; intros [| ch cs]; cbn; auto.
Qed.

Lemma reference_save_keeps_url (c : ChannelRef) (u : Reference.world) :
  Reference.ref_url c (snd (Reference.ref_save c u)) = Reference.ref_url c u.
Proof.
  unfold Reference.ref_url, Reference.ref_save, Reference.on_channel.
  cbn. generalize (Reference.channels u) as cs.
  induction c as [| c IH]; intros [| ch cs]; cbn; auto.
Qed.

Lemma rename_keeps_url_witness :
  let out := run_method (K := Reference.collaborators) (Podcast.rename "LW")
               linux_weekly Reference.library in
  Podcast.url (self (snd out)) = "http://example.org/linux.xml"
  /\ channel_url (Collaborators := Reference.collaborators) 0%nat (world (snd out))
     = "http://example.org/linux.xml".
Proof.
  destruct (rename_keeps_url (K := Reference.collaborators) linux_weekly 0%nat
              "LW" Reference.library eq_refl
              (reference_set_custom_title_keeps_url 0%nat "LW")
              (reference_save_keeps_url 0%nat))
    as (Hurl & _ & Hentity & _).
  split; [exact Hurl | exact Hentity].
Defined.

(** ** Episode.download *)

(** C9: Episode.download makes one download task for the wrapped episode
    entity, sets the task's status to QUEUED, and runs the task; these are
    its only collaborator calls, and it returns in the world the run of the
    task left, so the run is over when download returns. *)
Theorem download_runs_one_task `{K : Collaborators}
  (p : Episode.t) (t : TaskRef) (w w1 w2 w3 : World) :
  DownloadTask (Episode._episode p) w = (Ok t, w1) ->
  task_set_status t QUEUED w1 = (Ok tt, w2) ->
  task_run t w2 = (Ok tt, w3) ->
  run_method Episode.download p w
  = (Ok tt,
     mkEnv p w3
       [ENewDownloadTask (Episode._episode p); ETaskSetStatus t QUEUED;
        ETaskRun t]).
Proof.
  intros Hnew Hset Hrun. unfold_api.
  step_with Hnew. step_with Hset. step_with Hrun. reflexivity.
Qed.

Lemma download_runs_one_task_witness :
  run_method (K := Reference.collaborators) Episode.download kernel_news
    Reference.library
  = (Ok tt,
     mkEnv (K := Reference.collaborators) kernel_news
       (library_task Reference.task_done Reference.state_downloaded)
       [ENewDownloadTask 0%nat; ETaskSetStatus 0%nat 1; ETaskRun 0%nat]).
Proof.
  exact (download_runs_one_task (K := Reference.collaborators) kernel_news
           0%nat Reference.library
           (library_task 0 Reference.state_normal)
           (library_task Reference.task_queued Reference.state_normal)
           (library_task Reference.task_done Reference.state_downloaded)
           eq_refl eq_refl eq_refl).
Defined.

(** C10: Episode.download assigns no attribute of the projection: however it
    ends, title, url, is_new, is_downloaded and is_deleted are what they
    were; a projection whose is_downloaded was False still has it False
    after the download. *)
Theorem download_keeps_projection `{K : Collaborators}
  (p : Episode.t) (w : World) (r : result unit) (env : Env Episode.t) :
  run_method Episode.download p w = (r, env) ->
  self env = p
  /\ Episode.title (self env) = Episode.title p
  /\ Episode.url (self env) = Episode.url p
  /\ Episode.is_new (self env) = Episode.is_new p
  /\ Episode.is_downloaded (self env) = Episode.is_downloaded p
  /\ Episode.is_deleted (self env) = Episode.is_deleted p
  /\ (Episode.is_downloaded p = false ->
      Episode.is_downloaded (self env) = false).
Proof.
  intros Hrun.
  assert (Hself : self env = p).
  { revert Hrun. unfold_api.
    destruct (DownloadTask (Episode._episode p) w) as [[t | e] w1]; cbn;
      [| intros E; now inversion E].
    destruct (task_set_status t QUEUED w1) as [[[] | e] w2]; cbn;
      [| intros E; now inversion E].
    destruct (task_run t w2) as [r' w3]; cbn.
    intros E; now inversion E. }
  rewrite Hself. repeat split. auto.
Qed.

(** On the reference store the download succeeds and the entity becomes
    downloaded: a fresh projection says so, the old one does not. *)
Lemma download_keeps_projection_witness :
  let out := run_method (K := Reference.collaborators) Episode.download
               kernel_news Reference.library in
  fst out = Ok tt
  /\ Episode.is_downloaded (self (snd out)) = false
  /\ Episode.is_downloaded
       (snapshot (K := Reference.collaborators) 0%nat (world (snd out)))
     = true.
Proof.
  cbv zeta. split; [reflexivity |]. split; [| reflexivity].
  apply (download_keeps_projection (K := Reference.collaborators) kernel_news
           Reference.library _ _ eq_refl).
  reflexivity.
Defined.

(** * Further properties of the facade *)

(** ** Building projections over a list *)

Lemma podcast_init_runs `{K : Collaborators} {Self} (c : ChannelRef)
  (s : Env Self) :
  Podcast.__init__ c s
  = (Ok (project c (world s)),
     mkEnv (self s) (world s) (log s ++ [EChannelTitle c; EChannelUrl c])%list).
Proof.
  unfold project. unfold_api. rewrite <- app_assoc. reflexivity.
Qed.

Lemma for_each_podcast_init `{K : Collaborators} {Self}
  (cs : list ChannelRef) (s : Env Self) :
  for_each Podcast.__init__ cs s
  = (Ok (map (fun c => project c (world s)) cs),
     mkEnv (self s) (world s) (log s ++ podcast_reads cs)%list).
Proof.
  revert s. induction cs as [| c cs IH]; intros s.
  - cbn. unfold ret. rewrite app_nil_r. now destruct s.
  - cbn [for_each map]. unfold bind at 1. rewrite podcast_init_runs.
    unfold bind at 1. rewrite IH. cbn [self world log]. unfold ret.
    unfold podcast_reads. cbn [flat_map]. rewrite <- app_assoc. reflexivity.
Qed.

Lemma for_each_episode_init `{K : Collaborators} {Self}
  (es : list EpisodeRef) (s : Env Self) :
  for_each Episode.__init__ es s
  = (Ok (map (fun e => snapshot e (world s)) es),
     mkEnv (self s) (world s) (log s ++ episodes_reads es (world s))%list).
Proof.
  revert s. induction es as [| e es IH]; intros s.
  - cbn. unfold ret. rewrite app_nil_r. now destruct s.
  - cbn [for_each map]. unfold bind at 1. rewrite episode_init_runs.
    unfold bind at 1. rewrite IH. cbn [self world log]. unfold ret.
    unfold episodes_reads. cbn [flat_map]. rewrite <- app_assoc. reflexivity.
Qed.

(** ** get_podcasts *)

(** X1: get_podcasts returns one projection per channel the store lists, in
    the store's order and without filtering, each holding the channel's
    title and URL as they are after the load; building the projections only
    reads.  When load_from_db raises, get_podcasts raises the same exception
    and builds nothing. *)
Theorem get_podcasts_projects_in_store_order `{K : Collaborators}
  (w : World) (r : result (list ChannelRef)) (w1 : World) :
  load_from_db download_dir w = (r, w1) ->
  match r with
  | Ok cs =>
      run_function get_podcasts w
      = (Ok (map (fun c => project c w1) cs),
         mkEnv tt w1 (ELoadFromDb download_dir :: podcast_reads cs))
  | Raise e =>
      run_function get_podcasts w
      = (Raise e, mkEnv tt w1 [ELoadFromDb download_dir])
  end.
Proof.
  intros Hload. unfold run_function, get_podcasts. unfold bind, call.
  cbn [world self log]. rewrite Hload. destruct r as [cs | e].
  - rewrite for_each_podcast_init. reflexivity.
  - reflexivity.
Qed.

Lemma get_podcasts_projects_in_store_order_witness :
  run_function (K := Reference.collaborators) get_podcasts
    (library_with_feed "X" true)
  = (Ok [linux_weekly; Podcast.mk (Some 1%nat) "X" "http://example.com/feed"],
     mkEnv (K := Reference.collaborators) tt (library_with_feed "X" true)
       [ELoadFromDb "/home/user/gpodder-downloads";
        EChannelTitle 0%nat; EChannelUrl 0%nat;
        EChannelTitle 1%nat; EChannelUrl 1%nat]).
Proof.
  exact (get_podcasts_projects_in_store_order (K := Reference.collaborators)
           (library_with_feed "X" true) (Ok [0; 1]%nat)
           (library_with_feed "X" true) eq_refl).
Defined.

(** ** Podcast.get_episodes *)

(** X2: on a live projection, get_episodes asks the channel entity for all
    its episodes and returns one projection per episode, in the entity's
    order and whatever their state, each a snapshot of the episode as it is
    after the query; the podcast projection itself is not changed.  When the
    query raises, get_episodes raises the same exception. *)
Theorem get_episodes_projects_every_episode `{K : Collaborators}
  (p : Podcast.t) (c : ChannelRef) (w : World)
  (r : result (list EpisodeRef)) (w1 : World) :
  Podcast._podcast p = Some c ->
  get_all_episodes c w = (r, w1) ->
  match r with
  | Ok es =>
      run_method Podcast.get_episodes p w
      = (Ok (map (fun e => snapshot e w1) es),
         mkEnv p w1 (EGetAllEpisodes c :: episodes_reads es w1))
  | Raise e =>
      run_method Podcast.get_episodes p w
      = (Raise e, mkEnv p w1 [EGetAllEpisodes c])
  end.
Proof.
  intros Hp Hall. unfold run_method, Podcast.get_episodes, Podcast.podcast_attr.
  unfold bind, call, get_self, ret. cbn [world self log]. rewrite Hp.
  cbn [world self log]. rewrite Hall. destruct r as [es | e].
  - rewrite for_each_episode_init. reflexivity.
  - reflexivity.
Qed.

Lemma get_episodes_projects_every_episode_witness :
  run_method (K := Reference.collaborators) Podcast.get_episodes linux_weekly
    Reference.library
  = (Ok [kernel_news;
         Episode.mk 1%nat "Interview" "http://example.org/2.ogg" false true false;
         Episode.mk 2%nat "Old show" "http://example.org/3.ogg" false false true],
     mkEnv (K := Reference.collaborators) linux_weekly Reference.library
       (EGetAllEpisodes 0%nat
        :: episodes_reads (K := Reference.collaborators) [0; 1; 2]%nat
             Reference.library)).
Proof.
  exact (get_episodes_projects_every_episode (K := Reference.collaborators)
           linux_weekly 0%nat Reference.library (Ok [0; 1; 2]%nat)
           Reference.library eq_refl eq_refl).
Defined.

(** ** Podcast.update *)



(** ** Podcast.rename when a collaborator raises *)

(** X4: when set_custom_title raises, rename raises the same exception, the
    projection is left as it was (its title is not refreshed) and save is not
    called. *)
Theorem rename_keeps_title_when_set_custom_title_raises `{K : Collaborators}
  (p : Podcast.t) (c : ChannelRef) (new_title : string) (w w1 : World)
  (e : exn) :
  Podcast._podcast p = Some c ->
  set_custom_title c new_title w = (Raise e, w1) ->
  run_method (Podcast.rename new_title) p w
  = (Raise e, mkEnv p w1 [ESetCustomTitle c new_title]).
Proof.
  intros Hp Hset. unfold_api. step_with Hp. step_with Hset. reflexivity.
Qed.

Lemma rename_keeps_title_when_set_custom_title_raises_witness :
  run_method (K := reference_failing is_set_custom_title) (Podcast.rename "LW")
    linux_weekly Reference.library
  = (Raise (CollaboratorError "injected fault"),
     mkEnv (K := reference_failing is_set_custom_title) linux_weekly
       Reference.library [ESetCustomTitle 0%nat "LW"]).
Proof.
  exact (rename_keeps_title_when_set_custom_title_raises
           (K := reference_failing is_set_custom_title) linux_weekly 0%nat "LW"
           Reference.library Reference.library
           (CollaboratorError "injected fault") eq_refl eq_refl).
Defined.

(** X5: when set_custom_title returns and save raises, rename raises the
    exception of save, but the projection's title has already been replaced
    by the entity's title: the cached title changes although the change was
    not saved. *)
Theorem rename_refreshes_title_although_save_raises `{K : Collaborators}
  (p : Podcast.t) (c : ChannelRef) (new_title : string) (w w1 w2 : World)
  (e : exn) :
  Podcast._podcast p = Some c ->
  set_custom_title c new_title w = (Ok tt, w1) ->
  channel_save c w1 = (Raise e, w2) ->
  run_method (Podcast.rename new_title) p w
  = (Raise e,
     mkEnv (Podcast.mk (Some c) (channel_title c w1) (Podcast.url p)) w2
       [ESetCustomTitle c new_title; EChannelTitle c; ESave c]).
Proof.
  intros Hp Hset Hsave. unfold_api. step_with Hp. step_with Hset.
  step_with Hp. step_with Hp. step_with Hsave. reflexivity.
Qed.

Lemma rename_refreshes_title_although_save_raises_witness :
  let out := run_method (K := reference_failing is_save) (Podcast.rename "LW")
               linux_weekly Reference.library in
  fst out = Raise (CollaboratorError "injected fault")
  /\ Podcast.title (self (snd out)) = "LW".
Proof.
  cbv zeta.
  rewrite (rename_refreshes_title_although_save_raises
             (K := reference_failing is_save) linux_weekly 0%nat "LW"
             Reference.library
             (Reference.with_channels Reference.library
                [Reference.mkChannel "http://example.org/linux.xml"
                   "Linux Weekly" "LW" [0; 1; 2]%nat true])
             (Reference.with_channels Reference.library
                [Reference.mkChannel "http://example.org/linux.xml"
                   "Linux Weekly" "LW" [0; 1; 2]%nat true])
             (CollaboratorError "injected fault") eq_refl eq_refl eq_refl).
  split; reflexivity.
Defined.

(** ** Podcast.delete when a collaborator raises *)

(** X6: on a live projection, delete clears the reference exactly when it
    returns: when remove_downloaded or the entity's delete raises, the
    projection is left as it was and stays usable.  The entity's delete is
    called only after remove_downloaded returned, and the cached title and
    url survive the deletion. *)
Theorem delete_clears_reference_only_on_success `{K : Collaborators}
  (p : Podcast.t) (c : ChannelRef) (w : World) (r : result unit)
  (env : Env Podcast.t) :
  Podcast._podcast p = Some c ->
  run_method Podcast.delete p w = (r, env) ->
  (Podcast._podcast (self env) = None <-> r = Ok tt)
  /\ (r <> Ok tt -> self env = p)
  /\ Podcast.title (self env) = Podcast.title p
  /\ Podcast.url (self env) = Podcast.url p
  /\ (In (EDelete c) (log env) -> fst (remove_downloaded c w) = Ok tt).
Proof.
  intros Hp. unfold_api. step_with Hp.
  destruct (remove_downloaded c w) as [[[] | e1] w1]; cbn.
  - step_with Hp.
    destruct (channel_delete c w1) as [[[] | e2] w2]; cbn;
      intros E; inversion E; subst; cbn.
    + repeat split; auto. intros H; now elim H.
    + rewrite Hp. repeat split; auto; discriminate.
  - intros E; inversion E; subst; cbn. rewrite Hp.
    repeat split; auto; try discriminate.
    intros [H | []]; discriminate.
Qed.

Lemma delete_clears_reference_only_on_success_witness :
  let out := run_method (K := reference_failing is_delete) Podcast.delete
               linux_weekly Reference.library in
  fst out = Raise (CollaboratorError "injected fault")
  /\ self (snd out) = linux_weekly.
Proof.
  cbv zeta. split; [reflexivity |].
  apply (delete_clears_reference_only_on_success
           (K := reference_failing is_delete) linux_weekly 0%nat
           Reference.library _ _ eq_refl eq_refl).
  discriminate.
Defined.

(** ** get_podcast when the subscription exists *)

(** X7: get_podcast returns None exactly when the lookup returns None.  When
    the lookup finds a channel, get_podcast returns the projection of that
    channel, with the title and URL the channel has after the lookup; when
    the lookup raises, so does get_podcast. *)
Theorem get_podcast_projects_found_channel `{K : Collaborators}
  (url : string) (w : World) (r : result (option ChannelRef)) (w1 : World) :
  load (normalize_feed_url url) false None download_dir w = (r, w1) ->
  (fst (run_function (get_podcast url) w) = Ok None <-> r = Ok None)
  /\ (forall c, r = Ok (Some c) ->
        run_function (get_podcast url) w
        = (Ok (Some (project c w1)),
           mkEnv tt w1
             [ENormalizeFeedUrl url; lookup_load url;
              EChannelTitle c; EChannelUrl c]))
  /\ (forall e, r = Raise e ->
        run_function (get_podcast url) w
        = (Raise e, mkEnv tt w1 [ENormalizeFeedUrl url; lookup_load url])).
Proof.
  intros Hload. unfold lookup_load, project. unfold_api. step_with Hload.
  destruct r as [[c |] | e]; cbn.
  - split; [split; discriminate |].
    split; [intros c' E; now inversion E | discriminate].
  - split; [split; reflexivity |]. split; discriminate.
  - split; [split; discriminate |].
    split; [discriminate | intros e' E; now inversion E].
Qed.

Lemma get_podcast_projects_found_channel_witness :
  run_function (K := Reference.collaborators)
    (get_podcast "example.org/linux.xml") Reference.library
  = (Ok (Some linux_weekly),
     mkEnv (K := Reference.collaborators) tt Reference.library
       [ENormalizeFeedUrl "example.org/linux.xml";
        ELoad "http://example.org/linux.xml" false None
          "/home/user/gpodder-downloads";
        EChannelTitle 0%nat; EChannelUrl 0%nat]).
Proof.
  exact (proj1 (proj2 (get_podcast_projects_found_channel
                         (K := Reference.collaborators)
                         "example.org/linux.xml" Reference.library
                         (Ok (Some 0%nat)) Reference.library eq_refl))
               0%nat eq_refl).
Defined.

(** ** Normalization of the argument *)

Lemma prefix_of_append (s t : string) : String.prefix s (s ++ t) = true.
Proof.
  induction s as [| a s IH]; cbn; [now destruct t |].
  destruct (Ascii.ascii_dec a a) as [_ | Hne]; [exact IH | now elim Hne].
Qed.

Lemma reference_normalize_idempotent (url : string) :
  Reference.normalize (Reference.normalize url) = Reference.normalize url.
Proof.
  unfold Reference.normalize.
  destruct (String.prefix "http://" url) eqn:E.
  - now rewrite E.
  - now rewrite prefix_of_append.
Qed.

(** X8: with an idempotent normalize_feed_url, get_podcast and
    create_podcast give the same result and leave the same world whether
    they are passed a URL or its normalized form: a caller need not
    normalize, and may. *)
Theorem normalized_argument_makes_no_difference `{K : Collaborators}
  (url : string) (title : option string) (w : World) :
  normalize_feed_url (normalize_feed_url url) = normalize_feed_url url ->
  fst (run_function (get_podcast (normalize_feed_url url)) w)
  = fst (run_function (get_podcast url) w)
  /\ world (snd (run_function (get_podcast (normalize_feed_url url)) w))
     = world (snd (run_function (get_podcast url) w))
  /\ fst (run_function (create_podcast (normalize_feed_url url) title) w)
     = fst (run_function (create_podcast url title) w)
  /\ world (snd (run_function (create_podcast (normalize_feed_url url) title) w))
     = world (snd (run_function (create_podcast url title) w)).
Proof.
  intros Hidem. unfold_api. rewrite Hidem.
  destruct (load (normalize_feed_url url) false None download_dir w)
    as [[[c |] | e] w1]; cbn.
  all: destruct (load (normalize_feed_url url) true
                   (Some max_episodes_per_feed) download_dir w)
         as [[[c' |] | e'] w1']; cbn; auto.
  all: destruct title as [v |]; cbn; auto.
  all: try (destruct (set_custom_title c' v w1') as [[[] | e2] w2]; cbn; auto).
  all: try (destruct (channel_save c' w2) as [[[] | e3] w3]; cbn; auto).
  all: try (destruct (channel_save c' w1') as [[[] | e3] w3]; cbn; auto).
Qed.

Lemma normalized_argument_makes_no_difference_witness :
  fst (run_function (K := Reference.collaborators)
         (get_podcast "http://example.org/linux.xml") Reference.library)
  = fst (run_function (K := Reference.collaborators)
           (get_podcast "example.org/linux.xml") Reference.library).
Proof.
  exact (proj1 (normalized_argument_makes_no_difference
                  (K := Reference.collaborators) "example.org/linux.xml" None
                  Reference.library
                  (reference_normalize_idempotent "example.org/linux.xml"))).
Defined.

(** ** create_podcast: what is renamed and what is saved *)

(** X9: create_podcast calls set_custom_title only when a title was passed,
    only with that title, and only on the channel the load returned: without
    a title override the feed's own title is never touched. *)
Theorem create_podcast_renames_only_on_request `{K : Collaborators}
  (url : string) (title : option string) (w : World) (c : ChannelRef)
  (v : string) :
  In (ESetCustomTitle c v)
     (log (snd (run_function (create_podcast url title) w))) ->
  title = Some v
  /\ fst (load (normalize_feed_url url) true (Some max_episodes_per_feed)
            download_dir w) = Ok (Some c).
Proof.
  unfold_api.
  destruct (load (normalize_feed_url url) true (Some max_episodes_per_feed)
              download_dir w) as [[[c' |] | e] w1]; cbn.
  - destruct title as [v' |]; cbn.
    + destruct (set_custom_title c' v' w1) as [[[] | e2] w2]; cbn.
      * destruct (channel_save c' w2) as [[[] | e3] w3]; cbn;
          intros [H | [H | [H | H]]]; try discriminate;
          try (inversion H; subst; now split);
          destruct H as [H | H]; try discriminate;
          destruct H as [H | H]; try discriminate; now elim H.
      * intros [H | [H | [H | H]]]; try discriminate;
          try (inversion H; subst; now split); now elim H.
    + destruct (channel_save c' w1) as [[[] | e3] w3]; cbn;
        intros [H | [H | [H | H]]]; try discriminate;
        try (destruct H as [H | H]; try discriminate; now elim H);
        now elim H.
  - intros [H | [H | H]]; try discriminate; now elim H.
  - intros [H | [H | H]]; try discriminate; now elim H.
Qed.

Lemma create_podcast_renames_only_on_request_witness :
  In (ESetCustomTitle 1%nat "X")
     (log (snd (run_function (K := Reference.collaborators)
                  (create_podcast "example.com/feed" (Some "X"))
                  Reference.library)))
  /\ fst (load (Collaborators := Reference.collaborators)
            "http://example.com/feed" true (Some 200)
            "/home/user/gpodder-downloads" Reference.library)
     = Ok (Some 1%nat).
Proof.
  assert (H : In (ESetCustomTitle 1%nat "X")
                (log (snd (run_function (K := Reference.collaborators)
                             (create_podcast "example.com/feed" (Some "X"))
                             Reference.library)))).
  { right. right. left. reflexivity. }
  split; [exact H |].
  exact (proj2 (create_podcast_renames_only_on_request
                  (K := Reference.collaborators) "example.com/feed" (Some "X")
                  Reference.library 1%nat "X" H)).
Defined.

(** X10: when the title override raises, create_podcast raises the same
    exception without calling save: the channel the load made is left
    unsaved and no projection is returned. *)
Theorem create_podcast_skips_save_when_override_raises `{K : Collaborators}
  (url v : string) (w w1 w2 : World) (c : ChannelRef) (e : exn) :
  load (normalize_feed_url url) true (Some max_episodes_per_feed) download_dir w
  = (Ok (Some c), w1) ->
  set_custom_title c v w1 = (Raise e, w2) ->
  run_function (create_podcast url (Some v)) w
  = (Raise e,
     mkEnv tt w2
       [ENormalizeFeedUrl url; creating_load url; ESetCustomTitle c v]).
Proof.
  intros Hload Hset. unfold creating_load. unfold_api.
  step_with Hload. step_with Hset. reflexivity.
Qed.

Lemma create_podcast_skips_save_when_override_raises_witness :
  run_function (K := reference_failing is_set_custom_title)
    (create_podcast "example.com/feed" (Some "X")) Reference.library
  = (Raise (CollaboratorError "injected fault"),
     mkEnv (K := reference_failing is_set_custom_title) tt
       (library_with_feed EmptyString false)
       [ENormalizeFeedUrl "example.com/feed";
        ELoad "http://example.com/feed" true (Some 200)
          "/home/user/gpodder-downloads";
        ESetCustomTitle 1%nat "X"]).
Proof.
  exact (create_podcast_skips_save_when_override_raises
           (K := reference_failing is_set_custom_title) "example.com/feed" "X"
           Reference.library (library_with_feed EmptyString false)
           (library_with_feed EmptyString false) 1%nat
           (CollaboratorError "injected fault") eq_refl eq_refl).
Defined.

(** X11: whenever create_podcast returns a projection, the projection wraps
    a channel on which save was called, and its title and url are those the
    channel has when create_podcast returns. *)
Theorem create_podcast_result_is_saved `{K : Collaborators}
  (url : string) (title : option string) (w : World) (p : Podcast.t)
  (env : Env unit) :
  run_function (create_podcast url title) w = (Ok (Some p), env) ->
  exists c,
    Podcast._podcast p = Some c
    /\ In (ESave c) (log env)
    /\ Podcast.title p = channel_title c (world env)
    /\ Podcast.url p = channel_url c (world env).
Proof.
  unfold_api.
  destruct (load (normalize_feed_url url) true (Some max_episodes_per_feed)
              download_dir w) as [[[c |] | e] w1]; cbn;
    try (intros E; discriminate).
  destruct title as [v |]; cbn.
  - destruct (set_custom_title c v w1) as [[[] | e2] w2]; cbn;
      [| discriminate].
    destruct (channel_save c w2) as [[[] | e3] w3]; cbn;
      intros E; inversion E; subst; cbn.
    exists c. repeat split. auto 10.
  - destruct (channel_save c w1) as [[[] | e3] w3]; cbn;
      intros E; inversion E; subst; cbn.
    exists c. repeat split. auto 10.
Qed.

Lemma create_podcast_result_is_saved_witness :
  exists c,
    Podcast._podcast (Podcast.mk (Some 1%nat) "Example Cast"
                        "http://example.com/feed") = Some c
    /\ In (ESave c)
         (log (snd (run_function (K := Reference.collaborators)
                      (create_podcast "example.com/feed" None)
                      Reference.library))).
Proof.
  destruct (create_podcast_result_is_saved (K := Reference.collaborators)
              "example.com/feed" None Reference.library
              (Podcast.mk (Some 1%nat) "Example Cast" "http://example.com/feed")
              (snd (run_function (K := Reference.collaborators)
                      (create_podcast "example.com/feed" None)
                      Reference.library))
              eq_refl) as (c & Hc & Hsaved & _).
  exists c. split; [exact Hc | exact Hsaved].
Defined.

(** ** finish when a collaborator raises *)

(** X12: finish commits the store only after the subscription list was
    loaded, the exporter was made and the list was written: when any of
    these raises, commit is not called. *)
Theorem finish_commits_only_after_export `{K : Collaborators} (w : World) :
  In EDbCommit (log (snd (run_function finish w))) ->
  exists podcasts w1 x w2 w3,
    load_from_db download_dir w = (Ok podcasts, w1)
    /\ Exporter subscription_file w1 = (Ok x, w2)
    /\ exporter_write x podcasts w2 = (Ok tt, w3).
Proof.
  unfold_api.
  destruct (load_from_db download_dir w) as [[ps | e] w1] eqn:Hload; cbn.
  - destruct (Exporter subscription_file w1) as [[x | e] w2] eqn:Hnew; cbn.
    + destruct (exporter_write x ps w2) as [[[] | e] w3] eqn:Hwrite; cbn.
      * intros _. now exists ps, w1, x, w2, w3.
      * intros [H | [H | [H | []]]]; discriminate.
    + intros [H | [H | []]]; discriminate.
  - intros [H | []]; discriminate.
Qed.

Lemma finish_commits_only_after_export_witness :
  exists podcasts w1 x w2 w3,
    load_from_db (Collaborators := Reference.collaborators)
      "/home/user/gpodder-downloads" Reference.library = (Ok podcasts, w1)
    /\ Exporter (Collaborators := Reference.collaborators)
         "/home/user/.config/gpodder/channels.opml" w1 = (Ok x, w2)
    /\ exporter_write (Collaborators := Reference.collaborators) x podcasts w2
       = (Ok tt, w3).
Proof.
  apply (finish_commits_only_after_export (K := Reference.collaborators)
           Reference.library).
  right. right. right. left. reflexivity.
Defined.

(** X13: when the write of the subscription list raises, finish raises the
    same exception and the store is left uncommitted, in the world the
    failed write left. *)
Theorem finish_raises_when_write_raises `{K : Collaborators}
  (w w1 w2 w3 : World) (podcasts : list ChannelRef) (x : ExporterRef)
  (e : exn) :
  load_from_db download_dir w = (Ok podcasts, w1) ->
  Exporter subscription_file w1 = (Ok x, w2) ->
  exporter_write x podcasts w2 = (Raise e, w3) ->
  run_function finish w
  = (Raise e,
     mkEnv tt w3
       [ELoadFromDb download_dir; ENewExporter subscription_file;
        EExporterWrite x podcasts]).
Proof.
  intros Hload Hnew Hwrite. unfold_api.
  step_with Hload. step_with Hnew. step_with Hwrite. reflexivity.
Qed.

Lemma finish_raises_when_write_raises_witness :
  let out := run_function (K := reference_failing is_exporter_write) finish
               Reference.library in
  fst out = Raise (CollaboratorError "injected fault")
  /\ Reference.commits (world (snd out)) = 0%nat
  /\ Reference.files (world (snd out)) = Reference.files Reference.library.
Proof.
  cbv zeta.
  rewrite (finish_raises_when_write_raises
             (K := reference_failing is_exporter_write) Reference.library
             Reference.library
             (Reference.with_exporters Reference.library
                ["/home/user/.config/gpodder/channels.opml"])
             (Reference.with_exporters Reference.library
                ["/home/user/.config/gpodder/channels.opml"])
             [0%nat] 0%nat (CollaboratorError "injected fault")
             eq_refl eq_refl eq_refl).
  repeat split.
Defined.

(** ** Episode.download when a collaborator raises *)

(** X14: a task is run by download only after it was made for the wrapped
    episode and marked QUEUED, and the outcome of download is the outcome of
    that run: a failed download is raised to the caller, not swallowed. *)
Theorem download_outcome_is_that_of_the_run `{K : Collaborators}
  (p : Episode.t) (w : World) (r : result unit) (env : Env Episode.t)
  (t : TaskRef) :
  run_method Episode.download p w = (r, env) ->
  In (ETaskRun t) (log env) ->
  exists w1 w2,
    DownloadTask (Episode._episode p) w = (Ok t, w1)
    /\ task_set_status t QUEUED w1 = (Ok tt, w2)
    /\ task_run t w2 = (r, world env).
Proof.
  unfold_api.
  destruct (DownloadTask (Episode._episode p) w) as [[t' | e] w1] eqn:Hnew;
    cbn.
  - destruct (task_set_status t' QUEUED w1) as [[[] | e] w2] eqn:Hset; cbn.
    + destruct (task_run t' w2) as [r' w3] eqn:Hrun; cbn.
      intros E; inversion E; subst; cbn.
      intros [H | [H | [H | []]]]; try discriminate.
      inversion H; subst. now exists w1, w2.
    + intros E; inversion E; subst; cbn.
      intros [H | [H | []]]; discriminate.
  - intros E; inversion E; subst; cbn. intros [H | []]; discriminate.
Qed.

Lemma download_outcome_is_that_of_the_run_witness :
  exists w1 w2,
    DownloadTask (Collaborators := reference_failing is_task_run) 0%nat
      Reference.library = (Ok 0%nat, w1)
    /\ task_set_status (Collaborators := reference_failing is_task_run) 0%nat
         Reference.task_queued w1 = (Ok tt, w2)
    /\ task_run (Collaborators := reference_failing is_task_run) 0%nat w2
       = (Raise (CollaboratorError "injected fault"),
          library_task Reference.task_queued Reference.state_normal).
Proof.
  apply (download_outcome_is_that_of_the_run
           (K := reference_failing is_task_run) kernel_news Reference.library
           (Raise (CollaboratorError "injected fault"))
           (mkEnv (K := reference_failing is_task_run) kernel_news
              (library_task Reference.task_queued Reference.state_normal)
              [ENewDownloadTask 0%nat; ETaskSetStatus 0%nat 1; ETaskRun 0%nat])
           0%nat eq_refl).
  right. right. left. reflexivity.
Defined.

(** ** Episodes with no flag *)

(** X15: the three flags do not cover every episode.  With STATE_NORMAL
    different from the two other constants, the projection of an episode has
    none of is_new, is_downloaded, is_deleted set exactly when the episode is
    in STATE_NORMAL and played, or in none of the three states. *)
Theorem episode_without_flag `{K : Collaborators} (e : EpisodeRef) (w : World) :
  STATE_NORMAL <> STATE_DOWNLOADED ->
  STATE_NORMAL <> STATE_DELETED ->
  exists p env,
    run_function (Episode.__init__ e) w = (Ok p, env)
    /\ (flags_set p = 0%nat
        <-> (episode_state e w = STATE_NORMAL /\ episode_is_played e w = true)
            \/ (episode_state e w <> STATE_NORMAL
                /\ episode_state e w <> STATE_DOWNLOADED
                /\ episode_state e w <> STATE_DELETED)).
Proof.
  intros Hnd Hnx. exists (snapshot e w). eexists. split.
  - unfold run_function. apply episode_init_runs.
  - unfold flags_set, snapshot; cbn.
    destruct (Z.eqb_spec (episode_state e w) STATE_NORMAL) as [En | Nn];
      destruct (Z.eqb_spec (episode_state e w) STATE_DOWNLOADED) as [Ed | Nd];
      destruct (Z.eqb_spec (episode_state e w) STATE_DELETED) as [Ex | Nx];
      destruct (episode_is_played e w); cbn;
      try (exfalso; congruence);
      (split;
       [ intros H; try discriminate H; auto
       | intros [[H1 H2] | [H1 [H2 H3]]]; try reflexivity;
         try discriminate; exfalso; congruence ]).
Qed.

Lemma episode_without_flag_witness :
  exists p env,
    run_function (K := Reference.collaborators) (Episode.__init__ 0%nat)
      (Reference.with_episodes Reference.library
         [Reference.mkEpisode "Kernel news" "http://example.org/1.ogg"
            Reference.state_normal true])
    = (Ok p, env)
    /\ flags_set p = 0%nat.
Proof.
  destruct (episode_without_flag (K := Reference.collaborators) 0%nat
              (Reference.with_episodes Reference.library
                 [Reference.mkEpisode "Kernel news" "http://example.org/1.ogg"
                    Reference.state_normal true]))
    as (p & env & Hrun & Hflags); try discriminate.
  exists p, env. split; [exact Hrun |].
  apply Hflags. left. split; reflexivity.
Defined.
